(** * chunkr web client: the ModelTable and UploadMain components

    A shallow embedding of
      - apps/web/src/components/ModelTable/ModelTable.tsx
      - apps/web/src/components/Upload/UploadMain.tsx
    and the properties of the upload workflow that follow from the code.

    React elements are embedded as a tree of tagged nodes with their
    props; component state as a record; event handlers as programs over
    the state setters, the console, the router and the upload service;
    the asynchronous call as a continuation parked in the world until the
    service settles it. *)

From Stdlib Require Import String Ascii List Bool Arith Lia.
From stdpp Require Import base list strings.
Import ListNotations.

Local Open Scope string_scope.
Local Open Scope list_scope.

#[local] Set Warnings "-register-all".

(* ================================================================== *)
(** ** JSX element trees *)

Module Jsx.

(** The value of one prop.  [H] is the type of the event handlers of the
    component that builds the tree. *)
Inductive PropVal (H : Type) : Type :=
| PStr (s : string)
| PBool (b : bool)
| PStyle (decls : list (string * string))
| PHandler (h : H).

Inductive Node (H : Type) : Type :=
| Str (s : string)
| Elem (tag : string) (props : list (string * PropVal H))
       (children : list (Node H)).

Arguments PStr {H} s.
Arguments PBool {H} b.
Arguments PStyle {H} decls.
Arguments PHandler {H} h.
Arguments Str {H} s.
Arguments Elem {H} tag props children.

Section Queries.
Context {H : Type}.

Fixpoint get_prop (key : string) (props : list (string * PropVal H))
  : option (PropVal H) :=
  match props with
  | [] => None
  | (k, v) :: rest => if String.eqb k key then Some v else get_prop key rest
  end.

Definition props_of (n : Node H) : list (string * PropVal H) :=
  match n with
  | Str _ => []
  | Elem _ ps _ => ps
  end.

Definition children_of (n : Node H) : list (Node H) :=
  match n with
  | Str _ => []
  | Elem _ _ cs => cs
  end.

Definition has_tag (tag : string) (n : Node H) : bool :=
  match n with
  | Str _ => false
  | Elem t _ _ => String.eqb t tag
  end.

Definition has_class (cls : string) (n : Node H) : bool :=
  match get_prop "className" (props_of n) with
  | Some (PStr c) => String.eqb c cls
  | _ => false
  end.

(** First node, in document order, that satisfies [p]. *)
Fixpoint find_node (p : Node H -> bool) (n : Node H) : option (Node H) :=
  if p n then Some n
  else
    match n with
    | Str _ => None
    | Elem _ _ cs =>
        (fix first (l : list (Node H)) : option (Node H) :=
           match l with
           | [] => None
           | c :: l' =>
               match find_node p c with
               | Some r => Some r
               | None => first l'
               end
           end) cs
    end.

(** All nodes, in document order, that satisfy [p]; a match is not
    searched further. *)
Fixpoint find_all (p : Node H -> bool) (n : Node H) : list (Node H) :=
  if p n then [n]
  else
    match n with
    | Str _ => []
    | Elem _ _ cs =>
        (fix all (l : list (Node H)) : list (Node H) :=
           match l with
           | [] => []
           | c :: l' => find_all p c ++ all l'
           end) cs
    end.

(** The text of a node: its string leaves, concatenated. *)
Fixpoint text_of (n : Node H) : string :=
  match n with
  | Str s => s
  | Elem _ _ cs =>
      (fix cat (l : list (Node H)) : string :=
         match l with
         | [] => ""
         | c :: l' => text_of c +:+ cat l'
         end) cs
  end.

End Queries.

End Jsx.

(* ================================================================== *)
(** ** ModelTable.tsx *)

Module ModelTable.
Import Jsx.

(** The component has no handlers. *)
Definition Handler : Type := Empty_set.

Definition header_cell (s : string) : Node Handler :=
  Elem "Table.ColumnHeaderCell" [] [Str s].

Definition row_header_cell (s : string) : Node Handler :=
  Elem "Table.RowHeaderCell" [("className", PStr "sub-header")] [Str s].

Definition cell (s : string) : Node Handler :=
  Elem "Table.Cell" [] [Str s].

(** [export default function ModelTable()] *)
Definition ModelTable : Node Handler :=
  Elem "Flex"
    [("direction", PStr "column"); ("align", PStr "center");
     ("justify", PStr "center"); ("width", PStr "100%")]
    [Elem "Table.Root"
       [("variant", PStr "surface"); ("mt", PStr "24px");
        ("style", PStyle [("width", "100%")])]
       [Elem "Table.Header" []
          [Elem "Table.Row" []
             [header_cell "FEATURE";
              header_cell "FAST MODEL";
              header_cell "HIGH QUALITY MODEL"]];
        Elem "Table.Body" []
          [Elem "Table.Row" []
             [row_header_cell "Table extraction"; cell "✓"; cell "✓"];
           Elem "Table.Row" []
             [row_header_cell "Image processing";
              cell "Basic"; cell "Advanced"];
           Elem "Table.Row" []
             [row_header_cell "Formula OCR"; cell "-"; cell "✓"];
           Elem "Table.Row" []
             [row_header_cell "Processing speed";
              cell "Very fast"; cell "Moderate"];
           Elem "Table.Row" []
             [row_header_cell "Accuracy";
              cell "Good"; cell "Excellent"]]]].

(** What a reader of the rendered table sees: the rows of a section, each
    as the texts of its cells. *)
Definition rows_under (section : string) (n : Node Handler)
  : list (list string) :=
  match find_node (has_tag section) n with
  | None => []
  | Some sec =>
      map (fun r => map text_of (children_of r))
          (find_all (has_tag "Table.Row") sec)
  end.

Definition header_rows (n : Node Handler) : list (list string) :=
  rows_under "Table.Header" n.

Definition body_rows (n : Node Handler) : list (list string) :=
  rows_under "Table.Body" n.

(** The data rows as the specification words them: the fast-tier value
    of the formula row is an en dash (U+2013). *)
Definition spec_body_rows : list (list string) :=
  [["Table extraction"; "✓"; "✓"];
   ["Image processing"; "Basic"; "Advanced"];
   ["Formula OCR"; "–"; "✓"];
   ["Processing speed"; "Very fast"; "Moderate"];
   ["Accuracy"; "Good"; "Excellent"]].

End ModelTable.

(* ================================================================== *)
(** ** models/upload.model and the upload service *)

Module UploadModel.

(** The browser's [File] object.  The component reads only [name]. *)
Record File : Type := { name : string; type : string; size : nat }.

(** Modelled from the spec: the enumeration [Model] of
    models/upload.model, which is not among the sources.  "Two-valued
    enumeration: Fast, HighQuality"; the component names both values. *)
Inductive Model : Type := Fast | HighQuality.

(** [UploadForm], as the component builds it: [{ file, model }]. *)
Record UploadForm : Type := { file : File; model : Model }.

(** Modelled from the spec: the response type of [uploadFileStep] in
    services/chunkMyDocs, which is not among the sources.  "Contains at
    minimum a task identifier"; the component reads only [task_id]. *)
Record TaskResponse : Type := { task_id : string }.

(** Modelled from the spec: what a rejected call carries.  "The service
    call rejects for any reason: network failure, server error,
    malformed response"; the component never inspects it. *)
Inductive JsError : Type :=
| NetworkFailure
| ServerError (status : nat)
| MalformedResponse
| OtherError (message : string).

(** How the promise returned by [uploadFileStep] settles. *)
Inductive Outcome : Type :=
| Resolved (r : TaskResponse)
| Rejected (e : JsError).

End UploadModel.

(* ================================================================== *)
(** ** UploadMain.tsx *)

Module UploadMain.
Import Jsx.
Import UploadModel (File, name, Model, Fast, HighQuality, UploadForm,
                    TaskResponse, task_id, JsError, Outcome,
                    Resolved, Rejected).

(** *** Component state: the five [useState] cells *)

Record State : Type := {
  file : option File;        (* useState<File | null>(null) *)
  fileName : string;         (* useState("") *)
  model : Model;             (* useState<Model>(Model.Fast) *)
  isLoading : bool;          (* useState(false) *)
  error : option string      (* useState<string | null>(null) *)
}.

Definition initial : State :=
  {| file := None; fileName := ""; model := Fast;
     isLoading := false; error := None |}.

(** *** What a handler can do *)

Inductive Level : Type := Log | Error.

Inductive LogArg : Type :=
| LStr (s : string)
| LPayload (p : UploadForm)
| LResponse (r : TaskResponse)
| LThrown (e : JsError).

Inductive Action : Type :=
| SetFile (v : option File)
| SetFileName (v : string)
| SetModel (v : Model)
| SetIsLoading (v : bool)
| SetError (v : option string)
| Console (l : Level) (args : list LogArg)
| Navigate (to : string).

(** A handler body: it returns, throws, performs an action and goes on,
    or awaits the upload service and goes on with how the call settles. *)
Inductive Prog (A : Type) : Type :=
| Ret (a : A)
| Throw (e : JsError)
| Do (a : Action) (k : Prog A)
| Await (payload : UploadForm) (k : Outcome -> Prog A).

Arguments Ret {A} a.
Arguments Throw {A} e.
Arguments Do {A} a k.
Arguments Await {A} payload k.

Fixpoint bind {A B : Type} (f : A -> Prog B) (m : Prog A) : Prog B :=
  match m with
  | Ret a => f a
  | Throw e => Throw e
  | Do a k => Do a (bind f k)
  | Await p k => Await p (fun o => bind f (k o))
  end.

#[export] Instance Prog_ret : MRet Prog := @Ret.
#[export] Instance Prog_bind : MBind Prog := @bind.

(** [try { body } catch (e) { handler e }] *)
Fixpoint try_catch {A : Type} (body : Prog A) (handler : JsError -> Prog A)
  : Prog A :=
  match body with
  | Ret a => Ret a
  | Throw e => handler e
  | Do a k => Do a (try_catch k handler)
  | Await p k => Await p (fun o => try_catch (k o) handler)
  end.

(** [try { body } finally { final }]: [final] runs however [body] ends,
    and the way [body] ended is kept. *)
Fixpoint try_finally {A : Type} (body : Prog A) (final : Prog unit)
  : Prog A :=
  match body with
  | Ret a => final ;; Ret a
  | Throw e => final ;; Throw e
  | Do a k => Do a (try_finally k final)
  | Await p k => Await p (fun o => try_finally (k o) final)
  end.

Definition try_catch_finally {A : Type} (body : Prog A)
    (handler : JsError -> Prog A) (final : Prog unit) : Prog A :=
  try_finally (try_catch body handler) final.

Definition act (a : Action) : Prog unit := Do a (Ret tt).

Definition setFile (v : option File) : Prog unit := act (SetFile v).
Definition setFileName (v : string) : Prog unit := act (SetFileName v).
Definition setModel (v : Model) : Prog unit := act (SetModel v).
Definition setIsLoading (v : bool) : Prog unit := act (SetIsLoading v).
Definition setError (v : option string) : Prog unit := act (SetError v).
Definition console_log (args : list LogArg) : Prog unit :=
  act (Console Log args).
Definition console_error (args : list LogArg) : Prog unit :=
  act (Console Error args).
Definition navigate (to : string) : Prog unit := act (Navigate to).

(** [await uploadFileStep(payload)]: the value the promise resolves
    with, or a throw of what it rejects with. *)
Definition uploadFileStep (payload : UploadForm) : Prog TaskResponse :=
  Await payload (fun o =>
    match o with
    | Resolved r => Ret r
    | Rejected e => Throw e
    end).

(** *** The handlers

    Each closes over the state of the render that created it, here the
    argument [s]. *)

Definition handleFileUpload (uploadedFile : File) : Prog unit :=
  setFile (Some uploadedFile) ;;
  setFileName (name uploadedFile).

Definition handleFileRemove : Prog unit :=
  setFile None ;;
  setFileName "".

Definition Model_eqb (a b : Model) : bool :=
  match a, b with
  | Fast, Fast | HighQuality, HighQuality => true
  | _, _ => false
  end.

Definition handleModelToggle (s : State) : Prog unit :=
  setModel (if Model_eqb (model s) Fast then HighQuality else Fast).

Definition handleRun (s : State) : Prog unit :=
  match file s with
  | None =>
      console_error [LStr "No file uploaded"]
  | Some f =>
      setIsLoading true ;;
      setError None ;;
      let payload :=
        {| UploadModel.file := f; UploadModel.model := model s |} in
      console_log [LStr "Component Payload:"; LPayload payload] ;;
      try_catch_finally
        (taskResponse ← uploadFileStep payload;
         console_log [LStr "Task Response:"; LResponse taskResponse] ;;
         navigate ("/status?taskId=" +:+ task_id taskResponse))
        (fun error =>
           console_error [LStr "Error uploading file:"; LThrown error] ;;
           setError (Some "Failed to upload file. Please try again later."))
        (setIsLoading false)
  end.

(** *** Rendering *)

(** What a prop can hold as a callback. *)
Inductive Handler : Type :=
| FileCallback (h : File -> Prog unit)
| Callback (h : Prog unit)
| HoverStyle (backgroundColor : string).

(** JavaScript truthiness of a [string | null]. *)
Definition truthy (v : option string) : bool :=
  match v with
  | None => false
  | Some "" => false
  | Some _ => true
  end.

Definition isSome {A : Type} (v : option A) : bool :=
  match v with
  | None => false
  | Some _ => true
  end.

Definition error_view (error : string) : Node Handler :=
  Elem "div"
    [("style", PStyle [("display", "flex"); ("justifyContent", "center");
                       ("alignItems", "center"); ("height", "100%");
                       ("width", "100%")])]
    [Elem "Link"
       [("to", PStr "/"); ("style", PStyle [("textDecoration", "none")])]
       [Elem "div"
          [("style",
             PStyle [("color", "var(--red-9)"); ("padding", "8px 12px");
                     ("border", "2px solid var(--red-12)");
                     ("borderRadius", "4px");
                     ("backgroundColor", "var(--red-7)");
                     ("cursor", "pointer");
                     ("transition", "background-color 0.2s ease")]);
           ("onMouseEnter", PHandler (HoverStyle "var(--red-8)"));
           ("onMouseLeave", PHandler (HoverStyle "var(--red-7)"))]
          [Str error]]].

Definition form_view (s : State) : Node Handler :=
  Elem "Flex" [("direction", PStr "column"); ("width", PStr "100%")]
    [Elem "Upload"
       [("onFileUpload", PHandler (FileCallback handleFileUpload));
        ("onFileRemove", PHandler (Callback handleFileRemove));
        ("isUploaded", PBool (isSome (file s)));
        ("fileName", PStr (fileName s))]
       [];
     Elem "Flex"
       [("direction", PStr "row"); ("height", PStr "64px");
        ("width", PStr "100%"); ("mt", PStr "40px");
        ("className", PStr "toggle-container");
        ("onClick", PHandler (Callback (handleModelToggle s)))]
       [Elem "Flex"
          [("direction", PStr "column"); ("height", PStr "100%");
           ("justify", PStr "center");
           ("className",
             PStr (if Model_eqb (model s) Fast
                   then "toggle-active" else "toggle"));
           ("style", PStyle [("borderTopLeftRadius", "4px");
                             ("borderBottomLeftRadius", "4px")])]
          [Elem "Text" [("size", PStr "4"); ("weight", PStr "medium")]
             [Str "Fast"]];
        Elem "Flex"
          [("direction", PStr "column"); ("height", PStr "100%");
           ("justify", PStr "center");
           ("className",
             PStr (if Model_eqb (model s) HighQuality
                   then "toggle-active" else "toggle"));
           ("style", PStyle [("borderTopRightRadius", "4px");
                             ("borderBottomRightRadius", "4px")])]
          [Elem "Text" [("size", PStr "4"); ("weight", PStr "medium")]
             [Str "High Quality"]]];
     Elem "Flex"
       [("direction", PStr "row"); ("width", PStr "100%");
        ("mt", PStr "32px")]
       [Elem "BetterButton"
          [("padding", PStr "16px 64px");
           ("onClick", PHandler (Callback (handleRun s)));
           ("active", PBool (isSome (file s) && negb (isLoading s)))]
          [Elem "Text" [("size", PStr "4"); ("weight", PStr "medium")]
             [Str (if isLoading s then "Uploading..." else "Run")]]]].

(** [export default function UploadMain()], as a function of the state
    cells of the render. *)
Definition UploadMain (s : State) : Node Handler :=
  match error s with
  | Some e => if truthy (error s) then error_view e else form_view s
  | None => form_view s
  end.

(** *** The world around the component

    The state cells, everything the handlers have done so far in the
    order they did it, and the calls to the upload service that have
    not settled yet, each with the rest of the handler that awaits it. *)

Inductive Obs : Type :=
| Did (a : Action)
| Called (payload : UploadForm)
| Unhandled (e : JsError).

Record World : Type := {
  st : State;
  trace : list Obs;
  pending : list (UploadForm * (Outcome -> Prog unit))
}.

Definition start : World :=
  {| st := initial; trace := []; pending := [] |}.

(** The effect of an action on the state cells.  A setter replaces its
    cell; the handlers read the cells only through the render that
    created them, so applying a setter at once or at the next render
    gives the same states between events. *)
Definition perform (a : Action) (s : State) : State :=
  match a with
  | SetFile v =>
      {| file := v; fileName := fileName s; model := model s;
         isLoading := isLoading s; error := error s |}
  | SetFileName v =>
      {| file := file s; fileName := v; model := model s;
         isLoading := isLoading s; error := error s |}
  | SetModel v =>
      {| file := file s; fileName := fileName s; model := v;
         isLoading := isLoading s; error := error s |}
  | SetIsLoading v =>
      {| file := file s; fileName := fileName s; model := model s;
         isLoading := v; error := error s |}
  | SetError v =>
      {| file := file s; fileName := fileName s; model := model s;
         isLoading := isLoading s; error := v |}
  | Console _ _ => s
  | Navigate _ => s
  end.

(** Run a handler body until it ends or awaits. *)
Fixpoint exec (p : Prog unit) (w : World) : World :=
  match p with
  | Ret _ => w
  | Throw e =>
      {| st := st w; trace := trace w ++ [Unhandled e];
         pending := pending w |}
  | Do a k =>
      exec k {| st := perform a (st w); trace := trace w ++ [Did a];
                pending := pending w |}
  | Await payload k =>
      {| st := st w; trace := trace w ++ [Called payload];
         pending := pending w ++ [(payload, k)] |}
  end.

(** A handler of the current render is called. *)
Definition invoke (h : State -> Prog unit) (w : World) : World :=
  exec (h (st w)) w.

(** The [i]-th pending call settles with [o]: the handler that awaits it
    goes on. *)
Definition settle (i : nat) (o : Outcome) (w : World) : World :=
  match pending w !! i with
  | None => w
  | Some (_, k) =>
      exec (k o) {| st := st w; trace := trace w;
                    pending := delete i (pending w) |}
  end.

(** What was observed, by kind. *)
Definition navigations (t : list Obs) : list string :=
  flat_map (fun o => match o with Did (Navigate to) => [to] | _ => [] end) t.

Definition calls (t : list Obs) : list UploadForm :=
  flat_map (fun o => match o with Called p => [p] | _ => [] end) t.

Definition console (t : list Obs) : list (Level * list LogArg) :=
  flat_map (fun o => match o with Did (Console l a) => [(l, a)] | _ => [] end)
           t.

(** *** The controls of the rendered view *)

Definition upload_control (view : Node Handler) : option (Node Handler) :=
  find_node (has_tag "Upload") view.

Definition toggle_control (view : Node Handler) : option (Node Handler) :=
  find_node (has_class "toggle-container") view.

Definition submit_control (view : Node Handler) : option (Node Handler) :=
  find_node (has_tag "BetterButton") view.

Definition bool_prop (key : string) (el : Node Handler) : option bool :=
  match get_prop key (props_of el) with
  | Some (PBool b) => Some b
  | _ => None
  end.

Definition str_prop (key : string) (el : Node Handler) : option string :=
  match get_prop key (props_of el) with
  | Some (PStr v) => Some v
  | _ => None
  end.

(** The [active] prop and the label of the submit control, when the
    view has one. *)
Definition submit_active (view : Node Handler) : option bool :=
  el ← submit_control view; bool_prop "active" el.

Definition submit_label (view : Node Handler) : option string :=
  text_of <$> submit_control view.

(** The name the file picker is given to display, when the view has a
    file picker. *)
Definition displayed_name (view : Node Handler) : option string :=
  el ← upload_control view; str_prop "fileName" el.

(** The file picker, components/Upload/Upload.tsx (not among the
    sources), is a collaborator: when rendered it may hand over a file
    through [onFileUpload] or report a removal through [onFileRemove]. *)
Definition Upload_pick (f : File) (el : Node Handler) : Prog unit :=
  match get_prop "onFileUpload" (props_of el) with
  | Some (PHandler (FileCallback h)) => h f
  | _ => Ret tt
  end.

Definition Upload_remove (el : Node Handler) : Prog unit :=
  match get_prop "onFileRemove" (props_of el) with
  | Some (PHandler (Callback h)) => h
  | _ => Ret tt
  end.

(** A click on an element runs its [onClick]. *)
Definition click (el : Node Handler) : Prog unit :=
  match get_prop "onClick" (props_of el) with
  | Some (PHandler (Callback h)) => h
  | _ => Ret tt
  end.

(** Modelled from the spec: components/BetterButton/BetterButton.tsx is
    not among the sources.  "The submit control is disabled while
    isSubmitting is true": a click on the button reaches [onClick] only
    when its [active] prop is true. *)
Definition BetterButton_click (el : Node Handler) : Prog unit :=
  match bool_prop "active" el with
  | Some true => click el
  | _ => Ret tt
  end.

(** *** Events *)

Inductive Event : Type :=
| PickFile (f : File)
| RemoveFile
| ClickToggle
| ClickRun
| Settle (i : nat) (o : Outcome).

(** With [on control react w], a control that is not in the current
    view cannot be used.  The view is that of the current cells: React
    renders again between two events, so the handlers an event reaches
    close over the state as it is.  The component stays mounted after a
    navigation; were it unmounted, it would see no further event, and its
    runs are the beginnings of the runs here. *)
Definition on (control : Node Handler -> option (Node Handler))
    (react : Node Handler -> Prog unit) (w : World) : World :=
  match control (UploadMain (st w)) with
  | Some el => exec (react el) w
  | None => w
  end.

Definition step (w : World) (ev : Event) : World :=
  match ev with
  | PickFile f => on upload_control (Upload_pick f) w
  | RemoveFile => on upload_control Upload_remove w
  | ClickToggle => on toggle_control click w
  | ClickRun => on submit_control BetterButton_click w
  | Settle i o => settle i o w
  end.

Definition steps (w : World) (evs : list Event) : World :=
  fold_left step evs w.

End UploadMain.

(* ================================================================== *)
(** ** Properties *)

Import Jsx.
Import UploadModel (File, name, Model, Fast, HighQuality, UploadForm,
                    TaskResponse, task_id, JsError, Outcome,
                    Resolved, Rejected).
Import UploadMain.

(** *** Vocabulary *)

(** The user's selection: the cells a submission has no business with. *)
Definition selection (s : State) : option File * string * Model :=
  (file s, fileName s, model s).

(** The payload a submission of [f] builds in state [s]. *)
Definition payload_of (f : File) (s : State) : UploadForm :=
  {| UploadModel.file := f; UploadModel.model := model s |}.

Definition failure_message : string :=
  "Failed to upload file. Please try again later.".

(** The world after the awaiting part of [handleRun] has gone on in [w]
    with a resolved, respectively a rejected, call. *)
Definition after_resolved (r : TaskResponse) (w : World) : World :=
  {| st := perform (SetIsLoading false) (st w);
     trace := trace w ++
       [Did (Console Log [LStr "Task Response:"; LResponse r]);
        Did (Navigate ("/status?taskId=" +:+ task_id r));
        Did (SetIsLoading false)];
     pending := pending w |}.

Definition after_rejected (e : JsError) (w : World) : World :=
  {| st := perform (SetIsLoading false)
             (perform (SetError (Some failure_message)) (st w));
     trace := trace w ++
       [Did (Console Error [LStr "Error uploading file:"; LThrown e]);
        Did (SetError (Some failure_message));
        Did (SetIsLoading false)];
     pending := pending w |}.

Definition after_settled (o : Outcome) (w : World) : World :=
  match o with
  | Resolved r => after_resolved r w
  | Rejected e => after_rejected e w
  end.

(** [k] is the rest of a [handleRun] that awaits the service. *)
Definition resumes_run (k : Outcome -> Prog unit) : Prop :=
  forall o w, exec (k o) w = after_settled o w.

(** The invariant of the worlds the user can bring about: no call is
    pending and [isLoading] is false, or exactly one call is pending, it
    is a [handleRun] awaiting the service, and [isLoading] is true. *)
Definition one_in_flight (w : World) : Prop :=
  match pending w with
  | [] => isLoading (st w) = false
  | [(_, k)] => isLoading (st w) = true /\ resumes_run k
  | _ => False
  end.

(** A file to try things on. *)
Definition report_pdf : File :=
  {| name := "report.pdf"; UploadModel.type := "application/pdf";
     UploadModel.size := 2048 |}.

(** A world in which [report.pdf] has been picked and nothing else has
    happened. *)
Definition picked : World := step start (PickFile report_pdf).

(** *** Vocabulary for the runs of the component *)

(** The world right after [handleRun] has suspended on a call for [f],
    the rest of the handler being [k]. *)
Definition started (f : File) (k : Outcome -> Prog unit) (w : World)
  : World :=
  {| st := perform (SetError None) (perform (SetIsLoading true) (st w));
     trace := trace w ++
       [Did (SetIsLoading true);
        Did (SetError None);
        Did (Console Log [LStr "Component Payload:";
                          LPayload (payload_of f (st w))]);
        Called (payload_of f (st w))];
     pending := pending w ++ [(payload_of f (st w), k)] |}.

(** What an event can do to a world in which at most one call is
    pending: nothing, or what the handler it reaches does. *)
Inductive transition (w : World) : Event -> World -> Prop :=
| T_ignored (ev : Event) :
    transition w ev w
| T_pick (f : File) :
    truthy (error (st w)) = false ->
    transition w (PickFile f) (exec (handleFileUpload f) w)
| T_remove :
    truthy (error (st w)) = false ->
    transition w RemoveFile (exec handleFileRemove w)
| T_toggle :
    truthy (error (st w)) = false ->
    transition w ClickToggle (invoke handleModelToggle w)
| T_run (f : File) (k : Outcome -> Prog unit) :
    truthy (error (st w)) = false ->
    file (st w) = Some f ->
    isLoading (st w) = false ->
    pending w = [] ->
    resumes_run k ->
    transition w ClickRun (started f k w)
| T_settle (p : UploadForm) (k : Outcome -> Prog unit) (o : Outcome) :
    pending w = [(p, k)] ->
    isLoading (st w) = true ->
    transition w (Settle 0 o)
      (after_settled o {| st := st w; trace := trace w; pending := [] |}).

(** The failure messages set so far, and the rejections nobody caught. *)
Definition failures (t : list Obs) : list string :=
  flat_map (fun o => match o with
                     | Did (SetError (Some m)) => [m]
                     | _ => []
                     end) t.

Definition unhandled (t : list Obs) : list JsError :=
  flat_map (fun o => match o with Unhandled e => [e] | _ => [] end) t.

(** The events by which the user selects: a file, no file, a model. *)
Definition is_selection_event (ev : Event) : bool :=
  match ev with
  | PickFile _ | RemoveFile | ClickToggle => true
  | ClickRun | Settle _ _ => false
  end.

Definition other_model (m : Model) : Model :=
  match m with
  | Fast => HighQuality
  | HighQuality => Fast
  end.

(** The [className]s of the two halves of the model toggle, left to
    right, when the view has the toggle. *)
Definition toggle_classes (view : Node Handler) : option (list string) :=
  el ← toggle_control view;
  Some (omap (str_prop "className") (children_of el)).

(** Invariants of the worlds the user can bring about. *)
Definition name_tracks_file (w : World) : Prop :=
  fileName (st w) =
    match file (st w) with
    | Some f => name f
    | None => ""
    end.

Definition error_is_settled (w : World) : Prop :=
  (error (st w) = None \/ error (st w) = Some failure_message) /\
  (isLoading (st w) = true -> error (st w) = None).

Definition calls_accounted (w : World) : Prop :=
  length (calls (trace w)) =
    length (navigations (trace w)) + length (failures (trace w)) +
    length (pending w).

Definition trace_is_clean (w : World) : Prop :=
  unhandled (trace w) = [] /\
  ~ In (Error, [LStr "No file uploaded"]) (console (trace w)).

(** *** Observations distribute over traces *)

Lemma navigations_app (t u : list Obs) :
  navigations (t ++ u) = navigations t ++ navigations u.
Proof. unfold navigations. apply flat_map_app. Qed.

Lemma calls_app (t u : list Obs) : calls (t ++ u) = calls t ++ calls u.
Proof. unfold calls. apply flat_map_app. Qed.

(** *** The two paths of [handleRun] up to its await *)

Lemma handleRun_no_file (w : World) :
  file (st w) = None ->
  invoke handleRun w =
    {| st := st w;
       trace := trace w ++ [Did (Console Error [LStr "No file uploaded"])];
       pending := pending w |}.
Proof.
  intros Hfile. unfold invoke, handleRun. rewrite Hfile. reflexivity.
Qed.

Lemma handleRun_parks (w : World) (f : File) :
  file (st w) = Some f ->
  exists k,
    resumes_run k /\
    invoke handleRun w =
      {| st := perform (SetError None) (perform (SetIsLoading true) (st w));
         trace := trace w ++
           [Did (SetIsLoading true);
            Did (SetError None);
            Did (Console Log [LStr "Component Payload:";
                              LPayload (payload_of f (st w))]);
            Called (payload_of f (st w))];
         pending := pending w ++ [(payload_of f (st w), k)] |}.
Proof.
  intros Hfile. unfold invoke, handleRun. rewrite Hfile.
  eexists. split.
  2: { cbn. rewrite <- !app_assoc. cbn. reflexivity. }
  intros [r | e] w'; cbn; unfold after_resolved, after_rejected;
    rewrite <- !app_assoc; reflexivity.
Qed.

(** *** What each view offers *)

Lemma UploadMain_form (s : State) :
  truthy (error s) = false -> UploadMain s = form_view s.
Proof.
  unfold UploadMain. destruct (error s) as [e |]; [| reflexivity].
  intros ->. reflexivity.
Qed.

Lemma UploadMain_error (s : State) :
  truthy (error s) = true ->
  exists e, error s = Some e /\ UploadMain s = error_view e.
Proof.
  unfold UploadMain. destruct (error s) as [e |]; [| discriminate].
  intros ->. exists e. split; reflexivity.
Qed.

Lemma submit_active_form (s : State) :
  submit_active (form_view s) = Some (isSome (file s) && negb (isLoading s)).
Proof. reflexivity. Qed.

Lemma submit_label_form (s : State) :
  submit_label (form_view s) =
    Some (if isLoading s then "Uploading..." else "Run").
Proof.
  unfold submit_label, submit_control. cbn.
  destruct (isLoading s); reflexivity.
Qed.

(** *** Events, unfolded through the view *)

Lemma step_PickFile (w : World) (f : File) :
  step w (PickFile f) =
    if truthy (error (st w)) then w else exec (handleFileUpload f) w.
Proof.
  unfold step, on. destruct (truthy (error (st w))) eqn:Herr.
  - destruct (UploadMain_error _ Herr) as (e & _ & ->). reflexivity.
  - rewrite (UploadMain_form _ Herr). reflexivity.
Qed.

Lemma step_RemoveFile (w : World) :
  step w RemoveFile =
    if truthy (error (st w)) then w else exec handleFileRemove w.
Proof.
  unfold step, on. destruct (truthy (error (st w))) eqn:Herr.
  - destruct (UploadMain_error _ Herr) as (e & _ & ->). reflexivity.
  - rewrite (UploadMain_form _ Herr). reflexivity.
Qed.

Lemma step_ClickToggle (w : World) :
  step w ClickToggle =
    if truthy (error (st w)) then w else invoke handleModelToggle w.
Proof.
  unfold step, on. destruct (truthy (error (st w))) eqn:Herr.
  - destruct (UploadMain_error _ Herr) as (e & _ & ->). reflexivity.
  - rewrite (UploadMain_form _ Herr). reflexivity.
Qed.

Lemma step_ClickRun (w : World) :
  step w ClickRun =
    if truthy (error (st w)) then w
    else if isSome (file (st w)) && negb (isLoading (st w))
         then invoke handleRun w
         else w.
Proof.
  unfold step, on. destruct (truthy (error (st w))) eqn:Herr.
  - destruct (UploadMain_error _ Herr) as (e & _ & ->). reflexivity.
  - rewrite (UploadMain_form _ Herr).
    change (submit_control (form_view (st w)))
      with (Some (Elem "BetterButton"
             [("padding", PStr "16px 64px");
              ("onClick", PHandler (Callback (handleRun (st w))));
              ("active",
                PBool (isSome (file (st w)) && negb (isLoading (st w))))]
             [Elem "Text" [("size", PStr "4"); ("weight", PStr "medium")]
                [Str (if isLoading (st w) then "Uploading..." else "Run")]])).
    unfold BetterButton_click, bool_prop. cbn.
    destruct (isSome (file (st w)) && negb (isLoading (st w))); reflexivity.
Qed.

(** Settling the call that was parked last. *)
Lemma settle_last (w : World) (l : list (UploadForm * (Outcome -> Prog unit)))
    (p : UploadForm) (k : Outcome -> Prog unit) (o : Outcome) :
  pending w = l ++ [(p, k)] ->
  settle (length l) o w =
    exec (k o) {| st := st w; trace := trace w; pending := l |}.
Proof.
  intros Hp. unfold settle. rewrite Hp.
  rewrite list_lookup_middle by reflexivity.
  rewrite delete_middle, app_nil_r. reflexivity.
Qed.

(* ================================================================== *)
(** ** The submission workflow *)

(** C1.  When a file [f] is selected, [handleRun] parks one call to the
    upload service, carrying [f] and the selected model.  Whenever that
    call resolves with a response [r], in whatever world the component is
    by then, the handler navigates exactly once, to
    [/status?taskId=<r.task_id>], and leaves [isLoading] false.  Settling
    the call right away is one such case. *)
Theorem submit_success_navigates (w : World) (f : File) :
  file (st w) = Some f ->
  exists k,
    pending (invoke handleRun w) = pending w ++ [(payload_of f (st w), k)] /\
    (forall (r : TaskResponse) (w' : World),
       navigations (trace (exec (k (Resolved r)) w')) =
         navigations (trace w') ++ ["/status?taskId=" +:+ task_id r] /\
       isLoading (st (exec (k (Resolved r)) w')) = false) /\
    (forall r : TaskResponse,
       let w2 := settle (length (pending w)) (Resolved r)
                        (invoke handleRun w) in
       navigations (trace w2) =
         navigations (trace w) ++ ["/status?taskId=" +:+ task_id r] /\
       isLoading (st w2) = false).
Proof.
  intros Hfile.
  destruct (handleRun_parks w f Hfile) as (k & Hk & Hrun).
  exists k. split; [rewrite Hrun; reflexivity |]. split.
  - intros r w'. rewrite (Hk (Resolved r) w'). cbn.
    rewrite navigations_app. split; reflexivity.
  - intros r w2. subst w2.
    rewrite (settle_last _ (pending w) (payload_of f (st w)) k)
      by (rewrite Hrun; reflexivity).
    rewrite (Hk (Resolved r)), Hrun. cbn.
    rewrite !navigations_app, app_nil_r. split; reflexivity.
Qed.

(** The task identifier ["abc123"] of the specification's example. *)
Lemma submit_success_navigates_witness :
  file (st picked) = Some report_pdf /\
  exists k,
    pending (invoke handleRun picked) =
      pending picked ++ [(payload_of report_pdf (st picked), k)] /\
    navigations
      (trace (exec (k (Resolved {| task_id := "abc123" |})) picked)) =
      ["/status?taskId=abc123"] /\
    isLoading (st (exec (k (Resolved {| task_id := "abc123" |})) picked)) =
      false.
Proof.
  split; [reflexivity |].
  destruct (submit_success_navigates picked report_pdf eq_refl)
    as (k & Hp & Hk & _).
  exists k. split; [exact Hp |].
  exact (Hk {| task_id := "abc123" |} picked).
Defined.

(** C2.  When a file is selected and the parked call rejects, with any
    cause [e] and in whatever world the component is by then, the handler
    sets [error] to the fixed message, leaves [isLoading] false and does
    not navigate. *)
Theorem submit_failure_reports (w : World) (f : File) :
  file (st w) = Some f ->
  exists k,
    pending (invoke handleRun w) = pending w ++ [(payload_of f (st w), k)] /\
    (forall (e : JsError) (w' : World),
       let w2 := exec (k (Rejected e)) w' in
       error (st w2) =
         Some "Failed to upload file. Please try again later." /\
       isLoading (st w2) = false /\
       navigations (trace w2) = navigations (trace w')) /\
    (forall e : JsError,
       let w2 := settle (length (pending w)) (Rejected e)
                        (invoke handleRun w) in
       error (st w2) =
         Some "Failed to upload file. Please try again later." /\
       isLoading (st w2) = false /\
       navigations (trace w2) = navigations (trace w)).
Proof.
  intros Hfile.
  destruct (handleRun_parks w f Hfile) as (k & Hk & Hrun).
  exists k. split; [rewrite Hrun; reflexivity |]. split.
  - intros e w' w2. subst w2. rewrite (Hk (Rejected e) w'). cbn.
    rewrite navigations_app, app_nil_r. repeat split; reflexivity.
  - intros e w2. subst w2.
    rewrite (settle_last _ (pending w) (payload_of f (st w)) k)
      by (rewrite Hrun; reflexivity).
    rewrite (Hk (Rejected e)), Hrun. cbn.
    rewrite !navigations_app, !app_nil_r. repeat split; reflexivity.
Qed.

Lemma submit_failure_reports_witness :
  file (st picked) = Some report_pdf /\
  let w2 := settle 0 (Rejected (UploadModel.ServerError 500))
                   (invoke handleRun picked) in
  error (st w2) = Some "Failed to upload file. Please try again later." /\
  isLoading (st w2) = false /\
  navigations (trace w2) = [].
Proof.
  split; [reflexivity |].
  destruct (submit_failure_reports picked report_pdf eq_refl)
    as (k & _ & _ & Hs).
  exact (Hs (UploadModel.ServerError 500)).
Defined.

(** C3.  With no file selected, [handleRun] only writes ["No file
    uploaded"] to the error console: every state cell is as before, no
    call to the upload service is made or parked, and nothing is
    navigated to. *)
Theorem submit_without_file_is_noop (w : World) :
  file (st w) = None ->
  let w1 := invoke handleRun w in
  st w1 = st w /\
  pending w1 = pending w /\
  calls (trace w1) = calls (trace w) /\
  navigations (trace w1) = navigations (trace w) /\
  trace w1 = trace w ++ [Did (Console Error [LStr "No file uploaded"])].
Proof.
  intros Hfile w1. subst w1. rewrite (handleRun_no_file w Hfile). cbn.
  rewrite calls_app, navigations_app, !app_nil_r.
  repeat split; reflexivity.
Qed.

Lemma submit_without_file_is_noop_witness :
  file (st start) = None /\
  let w1 := invoke handleRun start in
  st w1 = st start /\
  pending w1 = pending start /\
  calls (trace w1) = calls (trace start) /\
  navigations (trace w1) = navigations (trace start) /\
  trace w1 = trace start ++ [Did (Console Error [LStr "No file uploaded"])].
Proof.
  split; [reflexivity |].
  exact (submit_without_file_is_noop start eq_refl).
Defined.

(** C4.  When a file [f] is selected, [handleRun] first sets [isLoading]
    and clears [error], and only then calls the upload service; when it
    suspends, [isLoading] is true.  However the parked call settles, and
    in whatever world the component is by then, [isLoading] is false
    afterwards. *)
Theorem submit_brackets_isLoading (w : World) (f : File) :
  file (st w) = Some f ->
  let w1 := invoke handleRun w in
  isLoading (st w1) = true /\
  error (st w1) = None /\
  trace w1 = trace w ++
    [Did (SetIsLoading true);
     Did (SetError None);
     Did (Console Log [LStr "Component Payload:";
                       LPayload (payload_of f (st w))]);
     Called (payload_of f (st w))] /\
  exists k,
    pending w1 = pending w ++ [(payload_of f (st w), k)] /\
    (forall (o : Outcome) (w' : World),
       isLoading (st (exec (k o) w')) = false) /\
    (forall o : Outcome,
       isLoading (st (settle (length (pending w)) o w1)) = false).
Proof.
  intros Hfile w1. subst w1.
  destruct (handleRun_parks w f Hfile) as (k & Hk & Hrun).
  rewrite Hrun. cbn. repeat split.
  exists k. split; [reflexivity |]. split.
  - intros o w'. rewrite (Hk o w'). destruct o; reflexivity.
  - intros o.
    rewrite (settle_last _ (pending w) (payload_of f (st w)) k)
      by reflexivity.
    rewrite (Hk o). destruct o; reflexivity.
Qed.

Lemma submit_brackets_isLoading_witness :
  file (st picked) = Some report_pdf /\
  isLoading (st (invoke handleRun picked)) = true /\
  error (st (invoke handleRun picked)) = None /\
  isLoading
    (st (settle 0 (Resolved {| task_id := "abc123" |})
                (invoke handleRun picked))) = false /\
  isLoading
    (st (settle 0 (Rejected UploadModel.NetworkFailure)
                (invoke handleRun picked))) = false.
Proof.
  split; [reflexivity |].
  destruct (submit_brackets_isLoading picked report_pdf eq_refl)
    as (Hload & Herr & _ & k & _ & _ & Hs).
  split; [exact Hload |]. split; [exact Herr |].
  split;
    [exact (Hs (Resolved {| task_id := "abc123" |}))
    | exact (Hs (Rejected UploadModel.NetworkFailure))].
Defined.

(** C10.  [handleRun] never touches the selection.  Up to its return or
    its await the cells [file], [fileName] and [model] are as before;
    with no file selected nothing is parked; with a file selected, the one
    call it parks leaves the three cells as it finds them when it settles,
    resolved or rejected. *)
Theorem submit_keeps_selection (w : World) :
  let w1 := invoke handleRun w in
  selection (st w1) = selection (st w) /\
  match file (st w) with
  | None => pending w1 = pending w
  | Some f =>
      exists k,
        pending w1 = pending w ++ [(payload_of f (st w), k)] /\
        (forall (o : Outcome) (w' : World),
           selection (st (exec (k o) w')) = selection (st w')) /\
        (forall o : Outcome,
           selection (st (settle (length (pending w)) o w1)) =
             selection (st w))
  end.
Proof.
  intros w1. subst w1. destruct (file (st w)) as [f |] eqn:Hfile.
  - destruct (handleRun_parks w f Hfile) as (k & Hk & Hrun).
    rewrite Hrun. cbn. split; [reflexivity |].
    exists k. split; [reflexivity |]. split.
    + intros o w'. rewrite (Hk o w'). destruct o; reflexivity.
    + intros o.
      rewrite (settle_last _ (pending w) (payload_of f (st w)) k)
        by reflexivity.
      rewrite (Hk o). destruct o; reflexivity.
  - rewrite (handleRun_no_file w Hfile). split; reflexivity.
Qed.

(* ================================================================== *)
(** ** Selecting a file and a model *)

(** C7.  [handleModelToggle] turns [Fast] into [HighQuality] and
    [HighQuality] into [Fast], so one call changes [model] and a second
    call, from the next render, restores it. *)
Theorem toggle_twice_restores (w : World) :
  let w1 := invoke handleModelToggle w in
  let w2 := invoke handleModelToggle w1 in
  model (st w1) =
    match model (st w) with
    | Fast => HighQuality
    | HighQuality => Fast
    end /\
  model (st w1) <> model (st w) /\
  model (st w2) = model (st w).
Proof.
  intros w1 w2. subst w1 w2. unfold invoke, handleModelToggle. cbn.
  destruct (model (st w)); cbn; repeat split; discriminate.
Qed.

(** C8.  [handleFileUpload f] stores [f] and makes [fileName] the name of
    [f], which is what the form gives the file picker to display (the
    error view has no file picker); [handleFileRemove] afterwards sets
    [file] back to null and [fileName] back to the empty string. *)
Theorem select_then_remove (w : World) (f : File) :
  let w1 := exec (handleFileUpload f) w in
  let w2 := exec handleFileRemove w1 in
  file (st w1) = Some f /\
  fileName (st w1) = name f /\
  displayed_name (UploadMain.UploadMain (st w1)) =
    (if truthy (error (st w)) then None else Some (name f)) /\
  file (st w2) = None /\
  fileName (st w2) = "" /\
  displayed_name (UploadMain.UploadMain (st w2)) =
    (if truthy (error (st w)) then None else Some "").
Proof.
  cbn. unfold UploadMain.UploadMain. cbn.
  destruct (error (st w)) as [[| c e] |]; repeat split; reflexivity.
Qed.

(** The specification's example: a file named ["report.pdf"]. *)
Example select_report_pdf :
  let w1 := step start (PickFile report_pdf) in
  fileName (st w1) = "report.pdf" /\
  displayed_name (UploadMain.UploadMain (st w1)) = Some "report.pdf" /\
  st (step w1 RemoveFile) = initial.
Proof. repeat split; reflexivity. Qed.

(* ================================================================== *)
(** ** The submit control *)

(** C6.  Whenever the error view is not shown, the view has a submit
    control; its [active] prop is true exactly when a file is selected and
    [isLoading] is false, and its label is ["Uploading..."] when
    [isLoading] is true and ["Run"] otherwise. *)
Theorem submit_control_enabled_iff (s : State) :
  truthy (error s) = false ->
  exists active : bool,
    submit_active (UploadMain.UploadMain s) = Some active /\
    (active = true <-> file s <> None /\ isLoading s = false) /\
    submit_label (UploadMain.UploadMain s) =
      Some (if isLoading s then "Uploading..." else "Run").
Proof.
  intros Herr. rewrite (UploadMain_form s Herr).
  exists (isSome (file s) && negb (isLoading s)).
  split; [apply submit_active_form |].
  split; [| apply submit_label_form].
  destruct (file s), (isLoading s); cbn; split;
    try discriminate; try tauto; try (intros [? ?]; congruence).
  intros _. split; [discriminate | reflexivity].
Qed.

Lemma submit_control_enabled_iff_witness :
  truthy (error (st picked)) = false /\
  exists active : bool,
    submit_active (UploadMain.UploadMain (st picked)) = Some active /\
    (active = true <->
       file (st picked) <> None /\ isLoading (st picked) = false) /\
    submit_label (UploadMain.UploadMain (st picked)) =
      Some (if isLoading (st picked) then "Uploading..." else "Run").
Proof.
  split; [reflexivity |].
  exact (submit_control_enabled_iff (st picked) eq_refl).
Defined.

(* ================================================================== *)
(** ** One submission at a time *)

Lemma one_in_flight_start : one_in_flight start.
Proof. reflexivity. Qed.

(** An event handler that leaves [isLoading] and the pending calls alone
    keeps the invariant. *)
Lemma one_in_flight_frame (w w' : World) :
  pending w' = pending w ->
  isLoading (st w') = isLoading (st w) ->
  one_in_flight w -> one_in_flight w'.
Proof. unfold one_in_flight. intros -> ->. exact id. Qed.

Lemma one_in_flight_idle (w : World) :
  one_in_flight w -> isLoading (st w) = false -> pending w = [].
Proof.
  unfold one_in_flight.
  destruct (pending w) as [| [p k] [| c l]]; [reflexivity | | tauto].
  intros [Hload _] Hidle. congruence.
Qed.

Lemma one_in_flight_step (w : World) (ev : Event) :
  one_in_flight w -> one_in_flight (step w ev).
Proof.
  intros Hinv. destruct ev as [f | | | | i o].
  - rewrite step_PickFile. destruct (truthy _); [exact Hinv |].
    revert Hinv. apply one_in_flight_frame; reflexivity.
  - rewrite step_RemoveFile. destruct (truthy _); [exact Hinv |].
    revert Hinv. apply one_in_flight_frame; reflexivity.
  - rewrite step_ClickToggle. destruct (truthy _); [exact Hinv |].
    revert Hinv. apply one_in_flight_frame; reflexivity.
  - rewrite step_ClickRun. destruct (truthy _); [exact Hinv |].
    destruct (file (st w)) as [f |] eqn:Hfile; [| exact Hinv].
    destruct (isLoading (st w)) eqn:Hload; [exact Hinv |]. cbn.
    destruct (handleRun_parks w f Hfile) as (k & Hk & Hrun).
    rewrite Hrun. unfold one_in_flight. cbn.
    rewrite (one_in_flight_idle w Hinv Hload). cbn.
    split; [reflexivity | exact Hk].
  - cbn. unfold settle. unfold one_in_flight in Hinv.
    destruct (pending w) as [| [p k] [| c l]] eqn:Hp; [| | contradiction].
    + rewrite lookup_nil. unfold one_in_flight. rewrite Hp. exact Hinv.
    + destruct Hinv as [Hload Hk]. destruct i as [| i]; cbn.
      * rewrite (Hk o). destruct o; reflexivity.
      * destruct i; cbn; unfold one_in_flight; rewrite Hp;
          split; assumption.
Qed.

Lemma one_in_flight_steps (evs : list Event) (w : World) :
  one_in_flight w -> one_in_flight (steps w evs).
Proof.
  revert w. induction evs as [| ev evs IH]; intros w Hinv; [exact Hinv |].
  cbn. apply IH, one_in_flight_step, Hinv.
Qed.

(** With [isLoading] true, a click on the submit control changes
    nothing. *)
Lemma ClickRun_while_loading (w : World) :
  isLoading (st w) = true -> step w ClickRun = w.
Proof.
  intros Hload. rewrite step_ClickRun, Hload, andb_false_r.
  destruct (truthy _); reflexivity.
Qed.

(** C5.  Whatever the user does (pick or remove a file, toggle the model,
    click the submit control) and whenever the service settles a call,
    the component never has two calls pending: either none is pending and
    [isLoading] is false, or exactly one is pending, [isLoading] is true
    and a click on the submit control changes nothing. *)
Theorem no_overlapping_submissions (evs : list Event) :
  match pending (steps start evs) with
  | [] => isLoading (st (steps start evs)) = false
  | [_] =>
      isLoading (st (steps start evs)) = true /\
      step (steps start evs) ClickRun = steps start evs
  | _ => False
  end.
Proof.
  pose proof (one_in_flight_steps evs start one_in_flight_start) as Hinv.
  unfold one_in_flight in Hinv.
  destruct (pending (steps start evs)) as [| [p k] [| c l]];
    [exact Hinv | | exact Hinv].
  destruct Hinv as [Hload _].
  split; [exact Hload | apply ClickRun_while_loading, Hload].
Qed.

(** Two clicks in a row start one call, and a click after the first has
    settled starts the next. *)
Example double_click_starts_one_call :
  let w := steps start [PickFile report_pdf; ClickRun; ClickRun] in
  calls (trace w) = [payload_of report_pdf initial] /\
  length (pending w) = 1 /\
  let w' := steps w [Settle 0 (Resolved {| task_id := "abc123" |});
                     ClickRun] in
  length (calls (trace w')) = 2 /\ length (pending w') = 1.
Proof. repeat split; reflexivity. Qed.

(** The guard is the control's, not the handler's: [handleRun] called
    twice without it parks two calls. *)
Remark handleRun_has_no_guard :
  length (pending (invoke handleRun (invoke handleRun picked))) = 2.
Proof. reflexivity. Qed.

(* ================================================================== *)
(** ** The feature table *)

(** C9, as the specification has it, fails: the component writes the
    fast-model value of the "Formula OCR" row as a hyphen-minus, the
    specification as an en dash. *)
Lemma ModelTable_formula_row_is_hyphen :
  ModelTable.body_rows ModelTable.ModelTable <> ModelTable.spec_body_rows.
Proof. discriminate. Qed.

(** C9, amended.  [ModelTable] takes no argument and is one fixed table:
    a header row with the three columns FEATURE, FAST MODEL and HIGH
    QUALITY MODEL, and five data rows: Table extraction (✓/✓), Image
    processing (Basic/Advanced), Formula OCR (-/✓, the first a
    hyphen-minus), Processing speed (Very fast/Moderate) and Accuracy
    (Good/Excellent). *)
Theorem ModelTable_is_fixed_table :
  ModelTable.header_rows ModelTable.ModelTable =
    [["FEATURE"; "FAST MODEL"; "HIGH QUALITY MODEL"]] /\
  ModelTable.body_rows ModelTable.ModelTable =
    [["Table extraction"; "✓"; "✓"];
     ["Image processing"; "Basic"; "Advanced"];
     ["Formula OCR"; "-"; "✓"];
     ["Processing speed"; "Very fast"; "Moderate"];
     ["Accuracy"; "Good"; "Excellent"]].
Proof. split; reflexivity. Qed.

(* ================================================================== *)
(** ** Runs of the component *)

Lemma failures_app (t u : list Obs) :
  failures (t ++ u) = failures t ++ failures u.
Proof. unfold failures. apply flat_map_app. Qed.

Lemma unhandled_app (t u : list Obs) :
  unhandled (t ++ u) = unhandled t ++ unhandled u.
Proof. unfold unhandled. apply flat_map_app. Qed.

Lemma console_app (t u : list Obs) :
  console (t ++ u) = console t ++ console u.
Proof. unfold console. apply flat_map_app. Qed.

Lemma steps_snoc (w : World) (evs : list Event) (ev : Event) :
  steps w (evs ++ [ev]) = step (steps w evs) ev.
Proof. unfold steps. rewrite fold_left_app. reflexivity. Qed.

(** Every event is one of the transitions. *)
Lemma step_transition (w : World) (ev : Event) :
  one_in_flight w -> transition w ev (step w ev).
Proof.
  intros Hinv. destruct ev as [f | | | | i o].
  - rewrite step_PickFile. destruct (truthy _) eqn:Herr; now constructor.
  - rewrite step_RemoveFile. destruct (truthy _) eqn:Herr; now constructor.
  - rewrite step_ClickToggle. destruct (truthy _) eqn:Herr; now constructor.
  - rewrite step_ClickRun. destruct (truthy _) eqn:Herr; [constructor |].
    destruct (file (st w)) as [f |] eqn:Hfile; [| constructor].
    destruct (isLoading (st w)) eqn:Hload; [constructor |]. cbn.
    destruct (handleRun_parks w f Hfile) as (k & Hk & ->).
    apply (T_run w f k Herr Hfile Hload); [| exact Hk].
    exact (one_in_flight_idle w Hinv Hload).
  - cbn. unfold settle. unfold one_in_flight in Hinv.
    destruct (pending w) as [| [p k] [| c l]] eqn:Hp; [| | contradiction].
    + rewrite lookup_nil. constructor.
    + destruct Hinv as [Hload Hk]. destruct i as [| i]; cbn.
      * rewrite (Hk o). apply (T_settle w p k o Hp Hload).
      * destruct i; constructor.
Qed.

(** Induction over the worlds the user can bring about. *)
Lemma reachable_ind (P : World -> Prop) :
  P start ->
  (forall w ev w',
     one_in_flight w -> P w -> transition w ev w' -> P w') ->
  forall evs, P (steps start evs).
Proof.
  intros Hstart Hstep evs. induction evs as [| ev evs IH] using rev_ind.
  - exact Hstart.
  - rewrite steps_snoc.
    pose proof (one_in_flight_steps evs start one_in_flight_start) as Hinv.
    exact (Hstep _ ev _ Hinv IH (step_transition _ ev Hinv)).
Qed.

Lemma name_tracks_file_reachable (evs : list Event) :
  name_tracks_file (steps start evs).
Proof.
  apply reachable_ind; [reflexivity |].
  unfold name_tracks_file. intros w ev w' _ IH Htr.
  destruct Htr as [ev | f _ | _ | _ | f k _ _ _ _ _ | p k o _ _];
    try exact IH; try reflexivity; cbn; try exact IH.
  destruct o; exact IH.
Qed.

Lemma error_is_settled_reachable (evs : list Event) :
  error_is_settled (steps start evs).
Proof.
  apply reachable_ind.
  - split; [left; reflexivity | discriminate].
  - unfold error_is_settled. intros w ev w' _ IH Htr.
    destruct Htr as [ev | f _ | _ | _ | f k _ _ _ _ _ | p k o _ Hload];
      try exact IH; cbn.
    + split; [left |]; reflexivity.
    + destruct o; cbn.
      * split; [left; apply IH, Hload | discriminate].
      * split; [right; reflexivity | discriminate].
Qed.

Lemma calls_accounted_reachable (evs : list Event) :
  calls_accounted (steps start evs).
Proof.
  apply reachable_ind; [reflexivity |].
  unfold calls_accounted. intros w ev w' _ IH Htr.
  destruct Htr as [ev | f _ | _ | _ | f k _ _ _ Hp _ | p k o Hp _];
    try exact IH; cbn;
    rewrite ?calls_app, ?navigations_app, ?failures_app, ?length_app;
    cbn; try lia.
  rewrite Hp in IH.
  destruct o; cbn;
    rewrite ?calls_app, ?navigations_app, ?failures_app, ?length_app;
    cbn in *; lia.
Qed.

Lemma trace_is_clean_reachable (evs : list Event) :
  trace_is_clean (steps start evs).
Proof.
  apply reachable_ind; [split; [reflexivity | intros []] |].
  unfold trace_is_clean. intros w ev w' _ [Hun Hlog] Htr.
  destruct Htr as [ev | f _ | _ | _ | f k _ _ _ _ _ | p k o _ _];
    [split; assumption | | | | |];
    try destruct o; cbn;
    rewrite ?unhandled_app, ?console_app, ?Hun; cbn;
    (split; [reflexivity |]);
    rewrite ?in_app_iff; cbn; intuition discriminate.
Qed.



(** X1.  In every world the user can bring about, [fileName] is the name
    of the selected file, and the empty string when none is selected. *)
Theorem fileName_follows_file (evs : list Event) :
  fileName (st (steps start evs)) =
    match file (st (steps start evs)) with
    | Some f => name f
    | None => ""
    end.
Proof. exact (name_tracks_file_reachable evs). Qed.

(** X2.  In every world the user can bring about, [error] is null, and
    the form is shown, or it is the fixed failure message, and then
    nothing is loading and the error view shows that message. *)
Theorem error_shown_is_failure_message (evs : list Event) :
  match error (st (steps start evs)) with
  | None =>
      UploadMain.UploadMain (st (steps start evs)) =
        form_view (st (steps start evs))
  | Some e =>
      e = "Failed to upload file. Please try again later." /\
      isLoading (st (steps start evs)) = false /\
      UploadMain.UploadMain (st (steps start evs)) = error_view e
  end.
Proof.
  destruct (error_is_settled_reachable evs) as [Herr Hload].
  unfold UploadMain.UploadMain.
  destruct (error (st (steps start evs))) as [e |] eqn:He; [| reflexivity].
  destruct Herr as [Herr | Herr]; [discriminate |].
  injection Herr as ->. split; [reflexivity |]. split; [| reflexivity].
  destruct (isLoading (st (steps start evs))); [| reflexivity].
  discriminate (Hload eq_refl).
Qed.



(** X4.  Every call to the upload service is accounted for: in every
    world the user can bring about, the calls made so far are as many as
    the navigations, the failure messages set and the calls still
    pending, taken together. *)
Theorem every_call_accounted (evs : list Event) :
  length (calls (trace (steps start evs))) =
    length (navigations (trace (steps start evs))) +
    length (failures (trace (steps start evs))) +
    length (pending (steps start evs)).
Proof. exact (calls_accounted_reachable evs). Qed.

(** X5.  No rejection escapes [handleRun]: in no world the user can bring
    about has a handler ended by a throw. *)
Theorem no_unhandled_rejection (evs : list Event) :
  unhandled (trace (steps start evs)) = [].
Proof. exact (proj1 (trace_is_clean_reachable evs)). Qed.

(** X6.  Through the rendered controls the no-file guard of [handleRun]
    is never taken: in no world the user can bring about has
    ["No file uploaded"] been written to the console. *)
Theorem no_file_guard_unreachable (evs : list Event) :
  ~ In (Error, [LStr "No file uploaded"])
       (console (trace (steps start evs))).
Proof. exact (proj2 (trace_is_clean_reachable evs)). Qed.

(** X7.  Picking a file, removing it and toggling the model are local:
    in any world, such an event calls no service, navigates nowhere, and
    leaves the pending calls, [isLoading] and [error] as they are. *)
Theorem selection_events_are_local (w : World) (ev : Event) :
  is_selection_event ev = true ->
  pending (step w ev) = pending w /\
  calls (trace (step w ev)) = calls (trace w) /\
  navigations (trace (step w ev)) = navigations (trace w) /\
  isLoading (st (step w ev)) = isLoading (st w) /\
  error (st (step w ev)) = error (st w).
Proof.
  destruct ev as [f | | | | i o]; try discriminate; intros _.
  - rewrite step_PickFile. destruct (truthy _); cbn;
      rewrite ?calls_app, ?navigations_app, ?app_nil_r;
      repeat split; reflexivity.
  - rewrite step_RemoveFile. destruct (truthy _); cbn;
      rewrite ?calls_app, ?navigations_app, ?app_nil_r;
      repeat split; reflexivity.
  - rewrite step_ClickToggle. destruct (truthy _); cbn;
      rewrite ?calls_app, ?navigations_app, ?app_nil_r;
      repeat split; reflexivity.
Qed.

Lemma selection_events_are_local_witness :
  let w := steps start [PickFile report_pdf; ClickRun] in
  is_selection_event RemoveFile = true /\
  pending (step w RemoveFile) = pending w /\
  calls (trace (step w RemoveFile)) = calls (trace w) /\
  navigations (trace (step w RemoveFile)) = navigations (trace w) /\
  isLoading (st (step w RemoveFile)) = isLoading (st w) /\
  error (st (step w RemoveFile)) = error (st w).
Proof.
  split; [reflexivity |].
  exact (selection_events_are_local
           (steps start [PickFile report_pdf; ClickRun]) RemoveFile eq_refl).
Defined.

(** X8.  A click on the submit control calls the upload service exactly
    when the control is active, once, with the file and the model
    selected at that moment; otherwise it calls nothing. *)
Theorem click_run_uploads_selection (w : World) :
  calls (trace (step w ClickRun)) =
    calls (trace w) ++
    match submit_active (UploadMain.UploadMain (st w)), file (st w) with
    | Some true, Some f => [payload_of f (st w)]
    | _, _ => []
    end.
Proof.
  rewrite step_ClickRun. destruct (truthy (error (st w))) eqn:Herr.
  - destruct (UploadMain_error _ Herr) as (e & _ & ->). cbn.
    rewrite app_nil_r. reflexivity.
  - rewrite (UploadMain_form _ Herr), submit_active_form.
    destruct (file (st w)) as [f |] eqn:Hfile; cbn;
      [| rewrite app_nil_r; reflexivity].
    destruct (isLoading (st w)); cbn; [rewrite app_nil_r; reflexivity |].
    destruct (handleRun_parks w f Hfile) as (k & _ & ->). cbn.
    rewrite calls_app. reflexivity.
Qed.

Lemma steps_two (w : World) (a b : Event) :
  steps w [a; b] = step (step w a) b.
Proof. reflexivity. Qed.

(** X9.  From a world the user can bring about in which the submit
    control is active, a click and the settlement of the call it starts
    bring the state cells back to what they were when the call resolves,
    and to that with [error] set to the failure message when it rejects;
    either way no call is pending afterwards. *)
Theorem submission_round_trip (evs : list Event) (r : TaskResponse)
    (e : JsError) :
  submit_active (UploadMain.UploadMain (st (steps start evs))) = Some true ->
  let w := steps start evs in
  let ok := steps w [ClickRun; Settle 0 (Resolved r)] in
  let ko := steps w [ClickRun; Settle 0 (Rejected e)] in
  st ok = st w /\ pending ok = [] /\
  st ko = perform (SetError (Some failure_message)) (st w) /\
  pending ko = [].
Proof.
  intros Hact w ok ko. subst ok ko. rewrite !steps_two.
  pose proof (error_is_settled_reachable evs) as [Herr _].
  pose proof (one_in_flight_steps evs start one_in_flight_start) as Hinv.
  fold w in Hinv, Herr, Hact.
  assert (Hnone : error (st w) = None).
  { destruct Herr as [Herr | Herr]; [exact Herr |].
    unfold UploadMain.UploadMain in Hact. rewrite Herr in Hact.
    discriminate Hact. }
  assert (Hform : truthy (error (st w)) = false) by (rewrite Hnone; reflexivity).
  rewrite (UploadMain_form _ Hform), submit_active_form in Hact.
  injection Hact as Hact. apply andb_prop in Hact as [Hfile Hload].
  apply negb_true_iff in Hload.
  destruct (file (st w)) as [f |] eqn:Hf; [| discriminate].
  pose proof (one_in_flight_idle w Hinv Hload) as Hp.
  rewrite step_ClickRun, Hform, Hf, Hload. cbn.
  destruct (handleRun_parks w f Hf) as (k & Hk & Hrun).
  rewrite Hrun, Hp. cbn. unfold settle. cbn. rewrite !Hk. cbn.
  destruct (st w) as [sf sn sm sl se]. cbn in *. subst.
  repeat split; reflexivity.
Qed.

Lemma submission_round_trip_witness :
  let w := steps start [PickFile report_pdf; ClickToggle] in
  submit_active (UploadMain.UploadMain (st w)) = Some true /\
  st (steps w [ClickRun; Settle 0 (Resolved {| task_id := "abc123" |})]) =
    st w /\
  st (steps w [ClickRun; Settle 0 (Rejected UploadModel.MalformedResponse)]) =
    perform (SetError (Some failure_message)) (st w).
Proof.
  split; [reflexivity |].
  destruct (submission_round_trip [PickFile report_pdf; ClickToggle]
              {| task_id := "abc123" |} UploadModel.MalformedResponse eq_refl)
    as (Hok & _ & Hko & _).
  split; [exact Hok | exact Hko].
Defined.

(** X10.  While the form is shown, [n] clicks on the model toggle leave
    the model as it was when [n] is even and switch it to the other model
    when [n] is odd. *)
Theorem toggle_parity (n : nat) (w : World) :
  truthy (error (st w)) = false ->
  model (st (steps w (repeat ClickToggle n))) =
    if Nat.even n then model (st w) else other_model (model (st w)).
Proof.
  revert w. induction n as [| n IH]; intros w Herr; [reflexivity |].
  change (steps w (repeat ClickToggle (S n)))
    with (steps (step w ClickToggle) (repeat ClickToggle n)).
  assert (Hstep : step w ClickToggle = invoke handleModelToggle w)
    by (rewrite step_ClickToggle, Herr; reflexivity).
  rewrite IH by (rewrite Hstep; exact Herr).
  rewrite Hstep, Nat.even_succ, <- Nat.negb_even. cbn.
  destruct (Nat.even n), (model (st w)); reflexivity.
Qed.

Lemma toggle_parity_witness :
  truthy (error (st picked)) = false /\
  model (st (steps picked (repeat ClickToggle 3))) = HighQuality /\
  model (st (steps picked (repeat ClickToggle 4))) = Fast.
Proof.
  split; [reflexivity |].
  split;
    [exact (toggle_parity 3 picked eq_refl)
    | exact (toggle_parity 4 picked eq_refl)].
Defined.

(** X11.  Picking a file and toggling the model do not interfere: in
    either order they lead to the same state cells. *)
Theorem pick_and_toggle_commute (w : World) (f : File) :
  st (steps w [PickFile f; ClickToggle]) =
  st (steps w [ClickToggle; PickFile f]).
Proof.
  rewrite !steps_two, !step_ClickToggle, !step_PickFile.
  destruct (truthy (error (st w))) eqn:Herr; cbn; rewrite ?Herr; reflexivity.
Qed.

(** X12.  A newly picked file replaces the selected one, with no removal
    in between, and removing twice is removing once. *)
Theorem pick_replaces_selection (w : World) (f g : File) :
  st (steps w [PickFile f; PickFile g]) = st (step w (PickFile g)) /\
  st (steps w [RemoveFile; RemoveFile]) = st (step w RemoveFile).
Proof.
  rewrite !steps_two, !step_PickFile, !step_RemoveFile.
  destruct (truthy (error (st w))) eqn:Herr; cbn; rewrite ?Herr;
    split; reflexivity.
Qed.

(** X13.  While the form is shown, exactly one half of the model toggle
    carries the class [toggle-active]: the left one for [Fast], the right
    one for [HighQuality]; the other carries [toggle]. *)
Theorem toggle_highlights_model (s : State) :
  truthy (error s) = false ->
  toggle_classes (UploadMain.UploadMain s) =
    Some (match model s with
          | Fast => ["toggle-active"; "toggle"]
          | HighQuality => ["toggle"; "toggle-active"]
          end).
Proof.
  intros Herr. rewrite (UploadMain_form s Herr).
  unfold toggle_classes, toggle_control. cbn.
  destruct (model s); reflexivity.
Qed.

Lemma toggle_highlights_model_witness :
  truthy (error (st picked)) = false /\
  toggle_classes (UploadMain.UploadMain (st picked)) =
    Some ["toggle-active"; "toggle"].
Proof.
  split; [reflexivity |].
  exact (toggle_highlights_model (st picked) eq_refl).
Defined.
